(** * check_restic_health_check: a shallow embedding of the Nagios probe

    The plugin runs [restic check] as a subprocess and turns its exit
    status into a monitoring state.  The embedding follows
    [src/check_restic_health_check.py], read as Python 3 ([check_output]
    returns [bytes], [IOError] is [OSError]):

    - Python [str] values are [string]s (a decoded text is kept as its
      UTF-8 byte sequence), [bytes] values are [list byte];
    - [None] is [None]: an attribute holding [None] or a [str] is an
      [option string];
    - [os.environ] is a finite map from names to values;
    - the operating system is an oracle from an argv to the outcome of
      launching it;
    - the generator returned by [probe] is a step function on its suspended
      frame and on the resource object it mutates. *)

From Stdlib Require Import ZArith Strings.Byte Ascii String List Permutation.
From stdpp Require Import base option gmap strings list.
Import ListNotations.

Local Open Scope string_scope.
Local Open Scope list_scope.

(** ** Python values *)

(** Truth value of an attribute that is [None] or a [str]: [None] and the
    empty string are false. *)
Definition truthy (v : option string) : bool :=
  match v with
  | None => false
  | Some s => negb (String.eqb s "")
  end.

(** [a or b] on such values. *)
Definition py_or (a b : option string) : option string :=
  if truthy a then a else b.

(** ['%s' % v] for [v] a [str] or [None]. *)
Definition percent_s (v : option string) : string :=
  match v with
  | None => "None"
  | Some s => s
  end.

(** [sep.join(l)] *)
Fixpoint join (sep : string) (l : list string) : string :=
  match l with
  | [] => ""
  | [x] => x
  | x :: xs => x +:+ sep +:+ join sep xs
  end.

(** *** [bytes.decode()]

    With no argument the codec is UTF-8 and the error handler is strict:
    the call raises [UnicodeDecodeError] unless the bytes are well-formed
    UTF-8 (no overlong form, no surrogate, nothing above U+10FFFF). *)

Definition in_range (lo hi : N) (b : byte) : bool :=
  (lo <=? Byte.to_N b)%N && (Byte.to_N b <=? hi)%N.

Definition continuation (b : byte) : bool := in_range 0x80 0xBF b.

Fixpoint utf8_well_formed (bs : list byte) : bool :=
  match bs with
  | [] => true
  | b0 :: r0 =>
      if in_range 0x00 0x7F b0 then utf8_well_formed r0
      else
        match r0 with
        | [] => false
        | b1 :: r1 =>
            if in_range 0xC2 0xDF b0 then continuation b1 && utf8_well_formed r1
            else
              match r1 with
              | [] => false
              | b2 :: r2 =>
                  let second3 :=
                    if in_range 0xE0 0xE0 b0 then in_range 0xA0 0xBF b1
                    else if in_range 0xED 0xED b0 then in_range 0x80 0x9F b1
                    else continuation b1 in
                  if in_range 0xE0 0xEF b0
                  then second3 && continuation b2 && utf8_well_formed r2
                  else
                    match r2 with
                    | [] => false
                    | b3 :: r3 =>
                        let second4 :=
                          if in_range 0xF0 0xF0 b0 then in_range 0x90 0xBF b1
                          else if in_range 0xF4 0xF4 b0 then in_range 0x80 0x8F b1
                          else continuation b1 in
                        in_range 0xF0 0xF4 b0 && second4 && continuation b2
                        && continuation b3 && utf8_well_formed r3
                    end
              end
        end
  end.

Definition decode (bs : list byte) : option string :=
  if utf8_well_formed bs then Some (string_of_list_byte bs) else None.

(** ** The world outside the process *)

(** What launching an argv ends in: the child ran and exited with a return
    code and its combined stdout and stderr, or it could not be started and
    the operating system reported why. *)
Inductive launch_result :=
  | Exited (returncode : Z) (output : list byte)
  | NotLaunched (strerror : string).

Record World := mkWorld {
  environ : gmap string string;
  launch : list string -> launch_result
}.

(** [subprocess.check_output(cmd, stderr=subprocess.STDOUT)] *)
Inductive check_output_result :=
  | Output (out : list byte)
  | CalledProcessError (returncode : Z) (output : list byte)
  | IOError (str_e : string).

Definition check_output (w : World) (cmd : list string) : check_output_result :=
  match launch w cmd with
  | Exited rc out => if (rc =? 0)%Z then Output out else CalledProcessError rc out
  | NotLaunched msg => IOError msg
  end.

(** Exceptions that leave the plugin's own code. *)
Inductive exn :=
  | CheckError (msg : string)
  | UnicodeDecodeError
  | AttributeError.

(** What a run leaves behind besides its results. *)
Inductive event :=
  | LogInfo (msg : string)
  | LogDebugOutput (out : list byte)
  | Spawn (argv : list string).

(** ** nagiosplugin values *)

Inductive ServiceState := Ok | Warn | Critical | Unknown.

Record Metric := mkMetric {
  name : option string;
  value : bool;
  context : string
}.

Record Result := mkResult {
  state : ServiceState;
  hint : option string;
  metric : option Metric
}.

(** ** class ResticHealthCheck *)

Module ResticHealthCheck.

Record t := mk {
  restic_bin : string;
  repo : option string;
  password_file : option string;
  sudo : bool;
  stderr : option string
}.

Definition init (restic_bin : string) (repo password_file : option string)
    (sudo : bool) : t :=
  mk restic_bin repo password_file sudo None.

Definition set_stderr (self : t) (v : option string) : t :=
  mk (restic_bin self) (repo self) (password_file self) (sudo self) v.

Definition repo_message : string :=
  "Please specify repository location (-r, --repo or $RESTIC_REPOSITORY)".

Definition password_message : string :=
  "Please specify password or its location (-p, --password-file, $RESTIC_PASSWORD or $RESTIC_PASSWORD_FILE)".

(** Lines 42 to 50 of [probe]: the argv handed to the subprocess. *)
Definition build_cmd (self : t) : list string :=
  let cmd := [restic_bin self; "check"; "--quiet"; "--no-lock"] in
  let cmd := if sudo self then ["sudo"] ++ cmd else cmd in
  let cmd := match repo self with
             | Some r => if truthy (Some r) then cmd ++ ["--repo"; r] else cmd
             | None => cmd
             end in
  let cmd := match password_file self with
             | Some p =>
                 if truthy (Some p) then cmd ++ ["--password-file"; p] else cmd
             | None => cmd
             end in
  cmd.

(** *** The generator returned by [probe]

    A generator object is suspended at one of the two [yield]s, not yet
    started, or finished.  [AtYieldUnhealthy] keeps the local [e.output]
    that line 59 reads when the generator is resumed. *)
Inductive frame :=
  | Created
  | AtYieldUnhealthy (output : list byte)
  | AtYieldHealthy
  | Finished.

Inductive signal :=
  | Yield (m : Metric)
  | StopIteration
  | Raise (e : exn).

Record step := mkStep {
  signal_of : signal;
  resource_of : t;
  frame_of : frame;
  events_of : list event
}.

(** [self.probe()] runs nothing of the body: it returns a generator that
    has not started.  The generator refers to [self], it holds no copy, so
    every advance is given the resource as it then is. *)
Definition probe : frame := Created.

(** The two guards at lines 31 and 35. *)
Definition repo_missing (w : World) (self : t) : bool :=
  negb (truthy (repo self)) && negb (truthy (environ w !! "RESTIC_REPOSITORY")).

Definition password_missing (w : World) (self : t) : bool :=
  negb (truthy (password_file self))
  && negb (truthy (py_or (environ w !! "RESTIC_PASSWORD")
                         (environ w !! "RESTIC_PASSWORD_FILE"))).

(** [next(g)] for [g = self.probe()]: runs the body of [probe] from where
    the frame is suspended up to the next [yield], [raise] or the end. *)
Definition next (w : World) (self : t) (f : frame) : step :=
  match f with
  | Created =>
      if repo_missing w self then
        mkStep (Raise (CheckError repo_message)) self Finished []
      else if password_missing w self then
        mkStep (Raise (CheckError password_message)) self Finished []
      else
        let cmd := build_cmd self in
        let log := [LogInfo ("Using command: " +:+ join " " cmd); Spawn cmd] in
        match check_output w cmd with
        | CalledProcessError _ output =>
            mkStep (Yield (mkMetric (repo self) false "health_check"))
                   self (AtYieldUnhealthy output) log
        | IOError str_e =>
            mkStep (Raise (CheckError ("Failed to run " +:+ join " " cmd
                                       +:+ ": " +:+ str_e)))
                   self Finished log
        | Output restic_result =>
            mkStep (Yield (mkMetric (repo self) true "health_check"))
                   self AtYieldHealthy (log ++ [LogDebugOutput restic_result])
        end
  | AtYieldUnhealthy output =>
      match decode output with
      | Some text => mkStep StopIteration (set_stderr self (Some text)) Finished []
      | None => mkStep (Raise UnicodeDecodeError) self Finished []
      end
  | AtYieldHealthy => mkStep StopIteration self Finished []
  | Finished => mkStep StopIteration self Finished []
  end.

End ResticHealthCheck.

(** ** class ResticHealthCheckContext *)

Module ResticHealthCheckContext.

Definition evaluate (metric : Metric) (resource : ResticHealthCheck.t)
    : ServiceState :=
  if value metric then Ok else Critical.

(** [metric.resource] refers to the probed resource object; [resource] is
    that object as it is when [describe] is called. *)
Definition describe (metric : Metric) (resource : ResticHealthCheck.t)
    : option string :=
  ResticHealthCheck.stderr resource.

End ResticHealthCheckContext.

(** ** class ResticSummary *)

(** A computation that returns or raises. *)
Inductive outcome (A : Type) :=
  | Returns (a : A)
  | Raises (e : exn).
Arguments Returns {A} a.
Arguments Raises {A} e.

#[global] Instance outcome_ret : MRet outcome := fun A a => Returns a.

#[global] Instance outcome_bind : MBind outcome := fun A B k c =>
  match c with
  | Returns a => k a
  | Raises e => Raises e
  end.

(** [[f(r) for r in l]], stopping at the first element on which [f] raises. *)
Fixpoint comprehension {A B} (f : A -> outcome B) (l : list A) : outcome (list B) :=
  match l with
  | [] => Returns []
  | r :: rest =>
      y ← f r;
      ys ← comprehension f rest;
      mret (y :: ys)
  end.

Module ResticSummary.

(** [r.metric.name]; a result that carries no metric has [r.metric] equal
    to [None], whose attribute lookup fails. *)
Definition metric_name (r : Result) : outcome (option string) :=
  match metric r with
  | Some m => Returns (name m)
  | None => Raises AttributeError
  end.

(** [results] is the sequence that iterating the framework's container
    gives. *)
Definition ok (results : list Result) : outcome string :=
  ret ← comprehension
          (fun r => n ← metric_name r;
                    mret (percent_s n +:+ " health check OK"))
          results;
  mret ("Repository " +:+ join ", " ret).

Definition problem (results : list Result) : outcome string :=
  ret ← comprehension
          (fun r => n ← metric_name r;
                    mret (percent_s n +:+ " health check FAILED"))
          results;
  mret ("Repository " +:+ join ", " ret +:+ " failed").

End ResticSummary.

(** ** Probing and classifying: one run

    The framework iterates over the generator, evaluates every metric as it
    is yielded in the metric's context, and turns a [CheckError] into an
    [Unknown] result that carries the last metric seen; any other exception
    leaves the loop. *)

Record run := mkRun {
  yielded : list Metric;
  results_of : list Result;
  uncaught : option exn;
  final_resource : ResticHealthCheck.t;
  trace : list event
}.

Fixpoint for_metric_in (fuel : nat) (w : World) (self : ResticHealthCheck.t)
    (f : ResticHealthCheck.frame) (seen : list Metric)
    (acc : list Result) (log : list event) : option run :=
  match fuel with
  | O => None
  | S fuel' =>
      let s := ResticHealthCheck.next w self f in
      let self1 := ResticHealthCheck.resource_of s in
      let log1 := log ++ ResticHealthCheck.events_of s in
      match ResticHealthCheck.signal_of s with
      | ResticHealthCheck.Yield m =>
          let r := mkResult (ResticHealthCheckContext.evaluate m self1) None (Some m) in
          for_metric_in fuel' w self1 (ResticHealthCheck.frame_of s)
                        (seen ++ [m]) (acc ++ [r]) log1
      | ResticHealthCheck.StopIteration => Some (mkRun seen acc None self1 log1)
      | ResticHealthCheck.Raise (CheckError msg) =>
          Some (mkRun seen (acc ++ [mkResult Unknown (Some msg) (last seen)])
                      None self1 log1)
      | ResticHealthCheck.Raise e => Some (mkRun seen acc (Some e) self1 log1)
      end
  end.

Definition evaluate_resource (fuel : nat) (w : World) (self : ResticHealthCheck.t)
    : option run :=
  for_metric_in fuel w self ResticHealthCheck.probe [] [] [].

(** The states a run reports: one per result, and [Unknown] for an
    exception that left the loop. *)
Definition severities (r : run) : list ServiceState :=
  map state (results_of r)
  ++ match uncaught r with Some _ => [Unknown] | None => [] end.

(** The first and the second advance of the generator of a resource. *)
Definition first_step (w : World) (self : ResticHealthCheck.t)
    : ResticHealthCheck.step :=
  ResticHealthCheck.next w self ResticHealthCheck.probe.

Definition second_step (w : World) (self : ResticHealthCheck.t)
    : ResticHealthCheck.step :=
  ResticHealthCheck.next w
    (ResticHealthCheck.resource_of (first_step w self))
    (ResticHealthCheck.frame_of (first_step w self)).

(** ** The specification's vocabulary *)

(** The repository identifier as the specification resolves it: the explicit
    setting when there is one, the environment's [RESTIC_REPOSITORY]
    otherwise. *)
Definition spec_repository_identifier (w : World) (self : ResticHealthCheck.t)
    : option string :=
  py_or (ResticHealthCheck.repo self) (environ w !! "RESTIC_REPOSITORY").

(** The specification's [[flag <value>]?]: present when the option was given
    a non-empty value. *)
Definition optional_flag (flag : string) (v : option string) : list string :=
  match v with
  | Some (String c s) => [flag; String c s]
  | _ => []
  end.

(** The specification's argv grammar,
    [[sudo]? <bin> check --quiet --no-lock [--repo <repo>]? [--password-file <path>]?]. *)
Definition spec_argv (self : ResticHealthCheck.t) : list string :=
  (if ResticHealthCheck.sudo self then ["sudo"] else [])
  ++ [ResticHealthCheck.restic_bin self; "check"; "--quiet"; "--no-lock"]
  ++ optional_flag "--repo" (ResticHealthCheck.repo self)
  ++ optional_flag "--password-file" (ResticHealthCheck.password_file self).

(** [needle] occurs in [text]. *)
Definition mentions (needle text : string) : Prop :=
  exists before after, text = before +:+ needle +:+ after.

(** ** Scenarios *)

Module Scenario.

Definition result_a : Result :=
  mkResult Ok None (Some (mkMetric (Some "a") true "health_check")).

Definition result_b : Result :=
  mkResult Critical None (Some (mkMetric (Some "b") false "health_check")).

(** restic is installed and finds the repository healthy; only the
    environment names the repository. *)
Definition env_only_repo : World :=
  mkWorld {[ "RESTIC_REPOSITORY" := "/srv/repo" ]} (fun _ => Exited 0 []).

(** restic exits with status 1 after printing [fail text]. *)
Definition failing_check : World :=
  mkWorld ∅ (fun _ => Exited 1 (list_byte_of_string "fail text")).

(** restic exits with status 1 after printing the single byte 0xFF. *)
Definition failing_check_raw_byte : World :=
  mkWorld ∅ (fun _ => Exited 1 [xff]).

(** restic exits with status 1 and prints nothing. *)
Definition failing_check_silent : World :=
  mkWorld ∅ (fun _ => Exited 1 []).

(** There is no restic binary. *)
Definition no_binary : World :=
  mkWorld ∅ (fun _ => NotLaunched "[Errno 2] No such file or directory: 'restic'").

Definition explicit : ResticHealthCheck.t :=
  ResticHealthCheck.init "restic" (Some "r1") (Some "/p") true.

Definition from_environment : ResticHealthCheck.t :=
  ResticHealthCheck.init "restic" None (Some "/p") false.

Definition unconfigured : ResticHealthCheck.t :=
  ResticHealthCheck.init "restic" None None false.

(** restic exits with status 0 after printing the single byte 0xFF. *)
Definition passing_check_raw_byte : World :=
  mkWorld ∅ (fun _ => Exited 0 [xff]).

(** restic succeeds; the password comes from the environment. *)
Definition password_in_environment (secret : string) : World :=
  mkWorld {[ "RESTIC_PASSWORD" := secret ]} (fun _ => Exited 0 []).

Definition repo_only : ResticHealthCheck.t :=
  ResticHealthCheck.init "restic" (Some "r1") None false.

End Scenario.

(** ** What a run comes to *)

Import ResticHealthCheck.

Definition unhealthy (self : ResticHealthCheck.t) : Metric :=
  mkMetric (repo self) false "health_check".

Definition healthy (self : ResticHealthCheck.t) : Metric :=
  mkMetric (repo self) true "health_check".

Definition command_log (self : ResticHealthCheck.t) : list event :=
  [LogInfo ("Using command: " +:+ join " " (build_cmd self)); Spawn (build_cmd self)].

Definition launch_message (self : ResticHealthCheck.t) (str_e : string) : string :=
  "Failed to run " +:+ join " " (build_cmd self) +:+ ": " +:+ str_e.

(** What one run comes to, by the path the probe takes: the closed form of
    the loop [evaluate_resource], to which it is proved equal below. *)
Definition run_of (w : World) (self : ResticHealthCheck.t) : run :=
  if repo_missing w self then
    mkRun [] [mkResult Unknown (Some repo_message) None] None self []
  else if password_missing w self then
    mkRun [] [mkResult Unknown (Some password_message) None] None self []
  else
    match check_output w (build_cmd self) with
    | CalledProcessError _ output =>
        match decode output with
        | Some text =>
            mkRun [unhealthy self] [mkResult Critical None (Some (unhealthy self))]
                  None (set_stderr self (Some text)) (command_log self)
        | None =>
            mkRun [unhealthy self] [mkResult Critical None (Some (unhealthy self))]
                  (Some UnicodeDecodeError) self (command_log self)
        end
    | IOError str_e =>
        mkRun [] [mkResult Unknown (Some (launch_message self str_e)) None]
              None self (command_log self)
    | Output out =>
        mkRun [healthy self] [mkResult Ok None (Some (healthy self))]
              None self (command_log self ++ [LogDebugOutput out])
    end.

(** ** Observations on runs, options and results *)

(** The argvs that a trace launched, in order. *)
Definition spawned (log : list event) : list (list string) :=
  omap (fun e => match e with Spawn argv => Some argv | _ => None end) log.

(** An option as a test [if v:] sees it: an empty value is no value. *)
Definition given (v : option string) : option string :=
  if truthy v then v else None.

(** Bytes below 0x80 only. *)
Definition ascii_only (bs : list byte) : bool := forallb (in_range 0x00 0x7F) bs.

(** The name a summary prints for a result that carries a metric. *)
Definition printed_name (r : Result) : string :=
  percent_s (match metric r with Some m => name m | None => None end).

(** The three variables that [probe] looks up. *)
Definition consulted : list string :=
  ["RESTIC_REPOSITORY"; "RESTIC_PASSWORD"; "RESTIC_PASSWORD_FILE"].

(** Two environments that set the same consulted variables to something
    non-empty, whatever the values. *)
Definition same_presence (e1 e2 : gmap string string) : Prop :=
  forall k : string, In k consulted -> truthy (e1 !! k) = truthy (e2 !! k).

(** * Properties *)

(** ** Python values *)

Lemma truthy_None : truthy None = false.
Proof. reflexivity. Qed.

Lemma truthy_empty : truthy (Some "") = false.
Proof. reflexivity. Qed.

Lemma truthy_cons c s : truthy (Some (String c s)) = true.
Proof. reflexivity. Qed.

Lemma truthy_Some_inv v : truthy v = true -> exists c s, v = Some (String c s).
Proof.
  destruct v as [[|c s]|]; simpl; intros H; try discriminate.
  by exists c, s.
Qed.

Lemma py_or_falsy a b : truthy a = false -> py_or a b = b.
Proof. intros H. unfold py_or. by rewrite H. Qed.

Lemma append_cons (x : ascii) (a b : string) :
  String x a +:+ b = String x (a +:+ b).
Proof. reflexivity. Qed.

Lemma append_assoc (a b c : string) : (a +:+ b) +:+ c = a +:+ (b +:+ c).
Proof.
  induction a as [|x a IH]; [reflexivity |].
  by rewrite !append_cons, IH.
Qed.

Lemma append_empty_r (a : string) : a +:+ "" = a.
Proof.
  induction a as [|x a IH]; [reflexivity |].
  by rewrite append_cons, IH.
Qed.



Lemma decode_empty : decode [] = Some "".
Proof. reflexivity. Qed.

(** ** Command construction *)

Lemma optional_flag_extend (cmd : list string) flag v :
  match v with
  | Some s => if truthy (Some s) then cmd ++ [flag; s] else cmd
  | None => cmd
  end = cmd ++ optional_flag flag v.
Proof.
  destruct v as [[|c s]|]; simpl; by rewrite ?app_nil_r.
Qed.

(** C3. The argv built by [probe] is
    [[sudo]? <bin> check --quiet --no-lock [--repo <repo>]? [--password-file <path>]?]:
    the sudo token comes first, the two optional flags follow the fixed
    words in that order and are present only for an option that was given;
    with sudo, repository [r1] and password file [/p] it is exactly
    [sudo <bin> check --quiet --no-lock --repo r1 --password-file /p]. *)
Theorem build_cmd_grammar :
  forall self : ResticHealthCheck.t,
    build_cmd self = spec_argv self
    /\ (forall bin stderr0,
          build_cmd (ResticHealthCheck.mk bin (Some "r1") (Some "/p") true stderr0)
          = ["sudo"; bin; "check"; "--quiet"; "--no-lock";
             "--repo"; "r1"; "--password-file"; "/p"]).
Proof.
  intros self. split; [| reflexivity].
  unfold build_cmd, spec_argv.
  rewrite !optional_flag_extend.
  destruct (sudo self); simpl; by rewrite <- ?app_assoc.
Qed.


(** ** The evaluator *)

(** C8. [evaluate] is a function of the metric's value alone: a healthy
    metric is [Ok], an unhealthy one is [Critical], there is no other
    result, and the resource it is given makes no difference. *)
Theorem evaluate_two_states :
  forall (n : option string) (c : string) (m : Metric) (r r' : ResticHealthCheck.t),
    ResticHealthCheckContext.evaluate (mkMetric n true c) r = Ok
    /\ ResticHealthCheckContext.evaluate (mkMetric n false c) r = Critical
    /\ ResticHealthCheckContext.evaluate m r = (if value m then Ok else Critical)
    /\ (ResticHealthCheckContext.evaluate m r = Ok
        \/ ResticHealthCheckContext.evaluate m r = Critical)
    /\ ResticHealthCheckContext.evaluate m r = ResticHealthCheckContext.evaluate m r'.
Proof.
  intros n c m r r'. unfold ResticHealthCheckContext.evaluate.
  repeat split. destruct (value m); [by left | by right].
Qed.

(** ** The summary *)

Lemma comprehension_ext {A B} (f g : A -> outcome B) (l : list A) :
  (forall x, In x l -> f x = g x) -> comprehension f l = comprehension g l.
Proof.
  induction l as [|x l IH]; intros H; simpl; [done |].
  rewrite (H x) by (by left). rewrite IH; [done |].
  intros y Hy. apply H. by right.
Qed.

Lemma comprehension_map {A B C} (f : B -> outcome C) (g : A -> B) (l : list A) :
  comprehension f (map g l) = comprehension (fun x => f (g x)) l.
Proof. induction l as [|x l IH]; simpl; [done | by rewrite IH]. Qed.

(** The problem text does not look at the states of the results: changing
    them changes nothing. *)
Lemma problem_ignores_state (recolour : Result -> ServiceState) (rs : list Result) :
  ResticSummary.problem
    (map (fun r => mkResult (recolour r) (hint r) (metric r)) rs)
  = ResticSummary.problem rs.
Proof.
  unfold ResticSummary.problem. by rewrite comprehension_map.
Qed.

(** C1, as the code has it. With a result [a] that is [Ok] and a result [b]
    that is [Critical], in either order, the problem text names both: the
    [Ok] result is not left out. *)
Theorem problem_names_ok_result :
  ResticSummary.problem [Scenario.result_b; Scenario.result_a]
  = Returns "Repository b health check FAILED, a health check FAILED failed"
  /\ ResticSummary.problem [Scenario.result_a; Scenario.result_b]
     = Returns "Repository a health check FAILED, b health check FAILED failed".
Proof. split; reflexivity. Qed.

(** In no order is the text the one that leaves [a] out. *)
Lemma problem_never_only_b (rs : list Result) :
  Permutation [Scenario.result_a; Scenario.result_b] rs ->
  ResticSummary.problem rs <> Returns "Repository b health check FAILED failed".
Proof.
  intros HP.
  assert (Hlen : length rs = 2%nat) by (by rewrite <- (Permutation_length HP)).
  destruct rs as [|x [|y [|z rs]]]; simplify_eq/=.
  assert (Hx : In x [Scenario.result_a; Scenario.result_b])
    by (apply (Permutation_in x (Permutation_sym HP)); by left).
  assert (Hy : In y [Scenario.result_a; Scenario.result_b])
    by (apply (Permutation_in y (Permutation_sym HP)); right; by left).
  simpl in Hx, Hy.
  destruct Hx as [<- | [<- | []]], Hy as [<- | [<- | []]]; discriminate.
Qed.

(** ** The probe *)

(** The loop over the generator ends: two advances are enough, and more
    fuel changes nothing. *)
Lemma evaluate_resource_total (w : World) (self : ResticHealthCheck.t) (n : nat) :
  evaluate_resource (S (S n)) w self = Some (run_of w self).
Proof.
  unfold evaluate_resource, run_of, for_metric_in, next.
  destruct (repo_missing w self); [reflexivity |].
  destruct (password_missing w self); [reflexivity |].
  destruct (check_output w (build_cmd self)) as [out | rc out | e];
    simpl; try reflexivity.
  destruct (decode out); reflexivity.
Qed.

(** A run that stops at one of the two guards is over after one advance. *)
Lemma evaluate_resource_guarded (w : World) (self : ResticHealthCheck.t) (n : nat) :
  repo_missing w self || password_missing w self = true ->
  evaluate_resource (S n) w self = Some (run_of w self).
Proof.
  unfold evaluate_resource, run_of, for_metric_in, next.
  destruct (repo_missing w self); [reflexivity |].
  destruct (password_missing w self); [reflexivity | discriminate].
Qed.

(** The hidden field [stderr] is read by none of the guards and by no part
    of the command. *)
Lemma repo_missing_set_stderr w self v :
  repo_missing w (set_stderr self v) = repo_missing w self.
Proof. reflexivity. Qed.

Lemma password_missing_set_stderr w self v :
  password_missing w (set_stderr self v) = password_missing w self.
Proof. reflexivity. Qed.

Lemma build_cmd_set_stderr self v : build_cmd (set_stderr self v) = build_cmd self.
Proof. reflexivity. Qed.

Lemma severities_set_stderr (w : World) (self : ResticHealthCheck.t) v :
  severities (run_of w (set_stderr self v)) = severities (run_of w self).
Proof.
  unfold run_of.
  rewrite repo_missing_set_stderr, password_missing_set_stderr, build_cmd_set_stderr.
  destruct (repo_missing w self); [reflexivity |].
  destruct (password_missing w self); [reflexivity |].
  destruct (check_output w (build_cmd self)) as [out | rc out | e]; try reflexivity.
  destruct (decode out); reflexivity.
Qed.

(** A run changes nothing of the resource but [stderr]. *)
Lemma final_resource_set_stderr (w : World) (self : ResticHealthCheck.t) :
  final_resource (run_of w self)
  = set_stderr self (stderr (final_resource (run_of w self))).
Proof.
  unfold run_of.
  destruct (repo_missing w self); [by destruct self |].
  destruct (password_missing w self); [by destruct self |].
  destruct (check_output w (build_cmd self)) as [out | rc out | e];
    try (by destruct self).
  destruct (decode out); by destruct self.
Qed.

(** Whatever the generator yields is named by the attribute [repo], is
    yielded by the first advance, and leaves the resource as it was. *)
Lemma yield_inv (w : World) (self : ResticHealthCheck.t) (f : frame) (m : Metric) :
  signal_of (next w self f) = Yield m ->
  f = Created
  /\ name m = repo self
  /\ context m = "health_check"
  /\ resource_of (next w self f) = self
  /\ repo_missing w self = false
  /\ password_missing w self = false
  /\ ((value m = true /\ frame_of (next w self f) = AtYieldHealthy
       /\ exists out, launch w (build_cmd self) = Exited 0 out)
      \/ (value m = false
          /\ exists rc out, rc <> 0%Z
             /\ launch w (build_cmd self) = Exited rc out
             /\ frame_of (next w self f) = AtYieldUnhealthy out)).
Proof.
  destruct f; simpl; try discriminate; [| by destruct (decode output)].
  unfold check_output.
  destruct (repo_missing w self); [discriminate |].
  destruct (password_missing w self); [discriminate |].
  destruct (launch w (build_cmd self)) as [rc out | e]; [| discriminate].
  destruct (Z.eqb_spec rc 0) as [-> | Hrc]; simpl; intros [= <-]; simpl.
  - repeat split; try reflexivity. left. repeat split. by exists out.
  - repeat split; try reflexivity. right. split; [reflexivity |].
    by exists rc, out.
Qed.

(** With an explicit repository the name is the identifier the
    specification resolves. *)
Lemma yield_name_explicit (w : World) (self : ResticHealthCheck.t) (f : frame)
    (m : Metric) :
  signal_of (next w self f) = Yield m ->
  truthy (repo self) = true ->
  name m = spec_repository_identifier w self.
Proof.
  intros Hy Hr. destruct (yield_inv w self f m Hy) as (_ & -> & _).
  unfold spec_repository_identifier, py_or. by rewrite Hr.
Qed.

(** C2, as the code has it. With no explicit repository and
    [RESTIC_REPOSITORY] set to [/srv/repo], a healthy check yields a metric
    whose name is [None], while the repository identifier is [/srv/repo]. *)
Theorem metric_name_from_environment :
  signal_of (first_step Scenario.env_only_repo Scenario.from_environment)
  = Yield (mkMetric None true "health_check")
  /\ spec_repository_identifier Scenario.env_only_repo Scenario.from_environment
     = Some "/srv/repo"
  /\ ResticSummary.ok
       [mkResult Ok None (Some (mkMetric None true "health_check"))]
     = Returns "Repository None health check OK".
Proof. repeat split; vm_compute; reflexivity. Qed.

(** *** A check that fails *)

(** A text that [decode] returns is the captured output, byte for byte. *)
Lemma decode_exact (out : list byte) (text : string) :
  decode out = Some text -> list_byte_of_string text = out.
Proof.
  unfold decode. destruct (utf8_well_formed out); intros [= <-].
  apply list_byte_of_string_of_list_byte.
Qed.

(** X15. When restic exits with a non-zero status and its output decodes, the
    run has exactly one metric, unhealthy, one [Critical] result, no error,
    and the description of the metric is the captured output. *)
Lemma failed_check_is_critical (w : World) (self : ResticHealthCheck.t)
    (rc : Z) (out : list byte) (text : string) (n : nat) :
  repo_missing w self = false ->
  password_missing w self = false ->
  launch w (build_cmd self) = Exited rc out ->
  rc <> 0%Z ->
  decode out = Some text ->
  exists r,
    evaluate_resource (S (S n)) w self = Some r
    /\ yielded r = [unhealthy self]
    /\ results_of r = [mkResult Critical None (Some (unhealthy self))]
    /\ uncaught r = None
    /\ ResticHealthCheckContext.describe (unhealthy self) (final_resource r)
       = Some text
    /\ list_byte_of_string text = out.
Proof.
  intros Hrepo Hpw Hl Hrc Hd. exists (run_of w self).
  split; [apply evaluate_resource_total |].
  unfold run_of, check_output. rewrite Hrepo, Hpw, Hl.
  destruct (Z.eqb_spec rc 0) as [? | _]; [done |].
  rewrite Hd. simpl. repeat split. by apply decode_exact.
Qed.

Example failed_check_fail_text :
  exists r,
    evaluate_resource 2 Scenario.failing_check Scenario.explicit = Some r
    /\ severities r = [Critical]
    /\ uncaught r = None
    /\ ResticHealthCheckContext.describe (unhealthy Scenario.explicit)
         (final_resource r) = Some "fail text".
Proof. eexists. repeat split; vm_compute; reflexivity. Qed.

Example failed_check_silent :
  exists r,
    evaluate_resource 2 Scenario.failing_check_silent Scenario.explicit = Some r
    /\ severities r = [Critical]
    /\ uncaught r = None
    /\ ResticHealthCheckContext.describe (unhealthy Scenario.explicit)
         (final_resource r) = Some "".
Proof. eexists. repeat split; vm_compute; reflexivity. Qed.

(** C4, as the code has it. When restic exits with status 1 after printing
    the byte 0xFF, the probe yields its unhealthy metric and then, resumed,
    raises [UnicodeDecodeError]: the run ends in an exception, and the
    description of the metric stays [None]. *)
Theorem undecodable_output_raises :
  signal_of (first_step Scenario.failing_check_raw_byte Scenario.explicit)
  = Yield (unhealthy Scenario.explicit)
  /\ signal_of (second_step Scenario.failing_check_raw_byte Scenario.explicit)
     = Raise UnicodeDecodeError
  /\ (forall n,
        evaluate_resource (S (S n)) Scenario.failing_check_raw_byte Scenario.explicit
        = Some (mkRun [unhealthy Scenario.explicit]
                      [mkResult Critical None (Some (unhealthy Scenario.explicit))]
                      (Some UnicodeDecodeError)
                      Scenario.explicit
                      (command_log Scenario.explicit)))
  /\ ResticHealthCheckContext.describe (unhealthy Scenario.explicit)
       (resource_of (second_step Scenario.failing_check_raw_byte Scenario.explicit))
     = None.
Proof.
  split; [| split; [| split]]; vm_compute; reflexivity.
Qed.

(** *** Configuration errors *)

Lemma repo_missing_absent (w : World) (self : ResticHealthCheck.t) :
  repo self = None -> environ w !! "RESTIC_REPOSITORY" = None ->
  repo_missing w self = true.
Proof. intros Hr He. unfold repo_missing. by rewrite Hr, He. Qed.


(** C5. When the repository is given neither explicitly nor by
    [RESTIC_REPOSITORY], the first advance of the probe raises a
    [CheckError] whose message names [--repo] and [$RESTIC_REPOSITORY], no
    subprocess has been spawned (the trace is empty), and the run ends
    there with no metric. *)
Theorem missing_repository_raises :
  forall (w : World) (self : ResticHealthCheck.t),
    repo self = None ->
    environ w !! "RESTIC_REPOSITORY" = None ->
    first_step w self = mkStep (Raise (CheckError repo_message)) self Finished []
    /\ (forall n,
          evaluate_resource (S n) w self
          = Some (mkRun [] [mkResult Unknown (Some repo_message) None] None self []))
    /\ mentions "--repo" repo_message
    /\ mentions "$RESTIC_REPOSITORY" repo_message.
Proof.
  intros w self Hr He.
  pose proof (repo_missing_absent w self Hr He) as Hm.
  split; [| split; [| split]].
  - unfold first_step, next. by rewrite Hm.
  - intros n. rewrite evaluate_resource_guarded by (by rewrite Hm).
    unfold run_of. by rewrite Hm.
  - by exists "Please specify repository location (-r, ", " or $RESTIC_REPOSITORY)".
  - by exists "Please specify repository location (-r, --repo or ", ")".
Qed.

Lemma missing_repository_raises_witness :
  first_step Scenario.no_binary Scenario.unconfigured
  = mkStep (Raise (CheckError repo_message)) Scenario.unconfigured Finished [].
Proof.
  apply (missing_repository_raises Scenario.no_binary Scenario.unconfigured);
    reflexivity.
Defined.



(** With a repository the message is the one about the password. *)
Example missing_credentials_with_repository :
  first_step Scenario.no_binary (init "restic" (Some "r1") None false)
  = mkStep (Raise (CheckError password_message))
           (init "restic" (Some "r1") None false) Finished [].
Proof. vm_compute. reflexivity. Qed.

(** *** A binary that cannot be launched *)



(** ** Runs do not influence each other *)

(** C9. A run always ends; running again on the resource object the first
    run left behind, in the same environment and against the same tool
    behaviour, ends too and reports the same states; and so does a run that
    starts from any other value of the only mutable field, [stderr]. *)
Theorem rerun_same_severities :
  forall (w : World) (self : ResticHealthCheck.t),
    exists r1 r2,
      evaluate_resource 2 w self = Some r1
      /\ evaluate_resource 2 w (final_resource r1) = Some r2
      /\ severities r2 = severities r1
      /\ (forall v n,
            severities <$> evaluate_resource (S (S n)) w (set_stderr self v)
            = Some (severities r1)).
Proof.
  intros w self.
  exists (run_of w self), (run_of w (final_resource (run_of w self))).
  split; [apply evaluate_resource_total |].
  split; [apply evaluate_resource_total |].
  split.
  - rewrite (final_resource_set_stderr w self) at 1.
    apply severities_set_stderr.
  - intros v n. rewrite evaluate_resource_total. simpl.
    by rewrite severities_set_stderr.
Qed.

(** ** The description of a metric *)

(** C10. [describe] returns the [stderr] field of the resource, whatever the
    metric.  For a resource as the constructor leaves it: when the probe
    yields, the field has not been assigned and the description is [None];
    for a healthy metric it is still [None] after the generator has
    finished; for an unhealthy one the generator is suspended with the
    captured output, and only the next advance stores its decoded text,
    which the description then returns. *)
Theorem describe_follows_stderr :
  forall (w : World) (bin : string) (r p : option string) (su : bool) (m : Metric),
    signal_of (first_step w (init bin r p su)) = Yield m ->
    (forall m' res, ResticHealthCheckContext.describe m' res = stderr res)
    /\ resource_of (first_step w (init bin r p su)) = init bin r p su
    /\ ResticHealthCheckContext.describe m
         (resource_of (first_step w (init bin r p su))) = None
    /\ (value m = true ->
        signal_of (second_step w (init bin r p su)) = StopIteration
        /\ ResticHealthCheckContext.describe m
             (resource_of (second_step w (init bin r p su))) = None)
    /\ (value m = false ->
        exists out,
          frame_of (first_step w (init bin r p su)) = AtYieldUnhealthy out
          /\ forall text,
               decode out = Some text ->
               signal_of (second_step w (init bin r p su)) = StopIteration
               /\ ResticHealthCheckContext.describe m
                    (resource_of (second_step w (init bin r p su))) = Some text).
Proof.
  intros w bin r p su m Hy.
  destruct (yield_inv w _ _ m Hy) as (_ & _ & _ & Hres & _ & _ & Hcase).
  fold (first_step w (init bin r p su)) in Hres, Hcase.
  split; [reflexivity |]. split; [exact Hres |].
  split; [by rewrite Hres |].
  unfold second_step. rewrite Hres.
  destruct Hcase as [(Hv & Hf & _) | (Hv & rc & out & _ & _ & Hf)];
    rewrite Hf, Hv; (split; [intros ? | intros ?]); try discriminate.
  - by split.
  - exists out. split; [reflexivity |]. intros text Hd. simpl. by rewrite Hd.
Qed.

Lemma describe_follows_stderr_witness :
  ResticHealthCheckContext.describe (unhealthy Scenario.explicit)
    (resource_of (first_step Scenario.failing_check Scenario.explicit)) = None
  /\ ResticHealthCheckContext.describe (unhealthy Scenario.explicit)
       (resource_of (second_step Scenario.failing_check Scenario.explicit))
     = Some "fail text".
Proof.
  destruct (describe_follows_stderr Scenario.failing_check
              "restic" (Some "r1") (Some "/p") true (unhealthy Scenario.explicit)
              eq_refl)
    as (_ & _ & Hfirst & _ & Hsecond).
  split; [exact Hfirst |].
  destruct (Hsecond eq_refl) as (out & Hf & Hd).
  injection Hf as <-.
  exact (proj2 (Hd "fail text" eq_refl)).
Defined.

(** * Further properties of the code *)

(** Splits a goal about [run_of w self] by the path the probe takes. *)
Ltac by_path w self :=
  unfold run_of, check_output;
  destruct (repo_missing w self) eqn:Hrepo;
  [| destruct (password_missing w self) eqn:Hpw;
     [| destruct (launch w (build_cmd self)) as [rc out | str_e] eqn:Hlaunch;
        [destruct (Z.eqb_spec rc 0) as [Hrc | Hrc];
         [| destruct (decode out) as [text |] eqn:Hdec] |]]].

(** Settles an equivalence between a state being reported and the path
    that was taken, once the path is fixed. *)
Ltac state_iff :=
  unfold severities; simpl; split;
  [ intros Hin; repeat (destruct Hin as [Hin | Hin]);
    try discriminate Hin; try contradiction; subst; eauto 10
  | intros (Hr & Hp & Hex);
    repeat match goal with
           | H : _ /\ _ |- _ => destruct H
           | H : ex _ |- _ => destruct H
           end;
    first [congruence | simpl; auto] ].

(** ** What the reported state says about restic *)

(** X1. When both guards pass and restic exits with status 0, the run has
    exactly one metric, healthy and named by [repo], its only state is [Ok],
    nothing is raised, and the resource is left as it was: the captured
    output is never decoded, so any bytes will do, and [stderr] is not
    assigned. *)
Theorem passed_check_is_ok :
  forall (w : World) (self : ResticHealthCheck.t) (out : list byte) (n : nat),
    repo_missing w self = false ->
    password_missing w self = false ->
    launch w (build_cmd self) = Exited 0 out ->
    exists r,
      evaluate_resource (S (S n)) w self = Some r
      /\ yielded r = [mkMetric (repo self) true "health_check"]
      /\ severities r = [Ok]
      /\ uncaught r = None
      /\ final_resource r = self
      /\ second_step w self = mkStep StopIteration self Finished [].
Proof.
  intros w self out n Hrepo Hpw Hl. exists (run_of w self).
  split; [apply evaluate_resource_total |].
  unfold second_step, first_step, probe, next, run_of, check_output.
  rewrite Hrepo, Hpw, Hl. simpl. by repeat split.
Qed.

Lemma passed_check_is_ok_witness :
  exists r,
    evaluate_resource 2 Scenario.passing_check_raw_byte Scenario.explicit = Some r
    /\ yielded r = [mkMetric (Some "r1") true "health_check"]
    /\ severities r = [Ok]
    /\ uncaught r = None
    /\ final_resource r = Scenario.explicit
    /\ second_step Scenario.passing_check_raw_byte Scenario.explicit
       = mkStep StopIteration Scenario.explicit Finished [].
Proof.
  apply (passed_check_is_ok Scenario.passing_check_raw_byte Scenario.explicit
           [xff] 0); reflexivity.
Defined.

(** X2. A run reports [Ok] exactly when both guards passed and restic was
    launched and exited with status 0. *)
Theorem ok_iff_exit_zero :
  forall (w : World) (self : ResticHealthCheck.t) (n : nat) (r : run),
    evaluate_resource (S (S n)) w self = Some r ->
    (In Ok (severities r)
     <-> repo_missing w self = false
         /\ password_missing w self = false
         /\ exists out, launch w (build_cmd self) = Exited 0 out).
Proof.
  intros w self n r H. rewrite evaluate_resource_total in H.
  injection H as <-. by_path w self; state_iff.
Qed.

Lemma ok_iff_exit_zero_witness :
  In Ok (severities (run_of Scenario.passing_check_raw_byte Scenario.explicit))
  <-> repo_missing Scenario.passing_check_raw_byte Scenario.explicit = false
      /\ password_missing Scenario.passing_check_raw_byte Scenario.explicit = false
      /\ exists out,
           launch Scenario.passing_check_raw_byte (build_cmd Scenario.explicit)
           = Exited 0 out.
Proof.
  apply (ok_iff_exit_zero Scenario.passing_check_raw_byte Scenario.explicit 0).
  reflexivity.
Defined.



(** ** What a run does to the outside and to the resource *)

(** X4. A run launches at most one process: none when a guard stops it, and
    otherwise exactly the argv that [probe] built, once, whatever restic
    answers (no second attempt after a failure). *)
Theorem one_spawn_per_run :
  forall (w : World) (self : ResticHealthCheck.t) (n : nat),
    exists r,
      evaluate_resource (S (S n)) w self = Some r
      /\ spawned (trace r)
         = (if repo_missing w self || password_missing w self
            then [] else [build_cmd self]).
Proof.
  intros w self n. exists (run_of w self).
  split; [apply evaluate_resource_total |].
  by_path w self; reflexivity.
Qed.

(** X5. No advance of the generator changes the settings of the resource,
    and [stderr] is assigned in one place only: on resuming after the
    unhealthy [yield], with an output that decodes, and then it is that
    text. *)
Theorem next_writes_stderr_only :
  forall (w : World) (self : ResticHealthCheck.t) (f : frame),
    restic_bin (resource_of (next w self f)) = restic_bin self
    /\ repo (resource_of (next w self f)) = repo self
    /\ password_file (resource_of (next w self f)) = password_file self
    /\ sudo (resource_of (next w self f)) = sudo self
    /\ (stderr (resource_of (next w self f)) = stderr self
        \/ exists out text,
             f = AtYieldUnhealthy out
             /\ decode out = Some text
             /\ stderr (resource_of (next w self f)) = Some text).
Proof.
  intros w self f. destruct f as [| out | |]; simpl.
  - destruct (repo_missing w self); [by repeat split; try left |].
    destruct (password_missing w self); [by repeat split; try left |].
    destruct (check_output w (build_cmd self)); by repeat split; try left.
  - destruct (decode out) as [text |] eqn:Hd; simpl.
    + repeat split. right. by exists out, text.
    + by repeat split; try left.
  - by repeat split; try left.
  - by repeat split; try left.
Qed.

Lemma truthy_py_or (a b : option string) :
  truthy (py_or a b) = truthy a || truthy b.
Proof. unfold py_or. by destruct (truthy a) eqn:Ha; [rewrite Ha |]. Qed.

(** X6. The probe looks at the three environment variables only to see
    whether they hold something non-empty.  Two environments that agree on
    that, against the same tool behaviour, give the same run in every
    respect: results, messages, log lines and argv.  A password kept in
    [RESTIC_PASSWORD] therefore reaches none of them. *)
Theorem environment_values_unused :
  forall (w1 w2 : World) (self : ResticHealthCheck.t) (n : nat),
    (forall argv, launch w1 argv = launch w2 argv) ->
    same_presence (environ w1) (environ w2) ->
    evaluate_resource (S (S n)) w1 self = evaluate_resource (S (S n)) w2 self.
Proof.
  intros w1 w2 self n Hl He. rewrite !evaluate_resource_total. f_equal.
  assert (Hrepo : repo_missing w1 self = repo_missing w2 self).
  { unfold repo_missing. rewrite (He "RESTIC_REPOSITORY"); [done |].
    unfold consulted. simpl. tauto. }
  assert (Hpw : password_missing w1 self = password_missing w2 self).
  { unfold password_missing. rewrite !truthy_py_or.
    rewrite (He "RESTIC_PASSWORD"), (He "RESTIC_PASSWORD_FILE");
      [done | |]; unfold consulted; simpl; tauto. }
  unfold run_of, check_output. by rewrite Hrepo, Hpw, Hl.
Qed.

Lemma environment_values_unused_witness :
  evaluate_resource 2 (Scenario.password_in_environment "hunter2") Scenario.repo_only
  = evaluate_resource 2 (Scenario.password_in_environment "tr0ub4dor")
      Scenario.repo_only.
Proof.
  apply (environment_values_unused
           (Scenario.password_in_environment "hunter2")
           (Scenario.password_in_environment "tr0ub4dor")
           Scenario.repo_only 0).
  - reflexivity.
  - intros k [<- | [<- | [<- | []]]]; vm_compute; reflexivity.
Defined.

(** X7. [stderr] is never reset.  When a resource whose check failed is
    probed again and the check now passes, the second run is [Ok] and the
    description of its healthy metric is still the text of the earlier
    failure. *)
Theorem stderr_outlives_failure :
  forall (w1 w2 : World) (self : ResticHealthCheck.t) (rc : Z)
         (out out' : list byte) (text : string),
    repo_missing w1 self = false -> password_missing w1 self = false ->
    repo_missing w2 self = false -> password_missing w2 self = false ->
    launch w1 (build_cmd self) = Exited rc out -> rc <> 0%Z ->
    decode out = Some text ->
    launch w2 (build_cmd self) = Exited 0 out' ->
    exists r1 r2,
      evaluate_resource 2 w1 self = Some r1
      /\ evaluate_resource 2 w2 (final_resource r1) = Some r2
      /\ severities r2 = [Ok]
      /\ yielded r2 = [mkMetric (repo self) true "health_check"]
      /\ ResticHealthCheckContext.describe
           (mkMetric (repo self) true "health_check") (final_resource r2)
         = Some text.
Proof.
  intros w1 w2 self rc out out' text Hr1 Hp1 Hr2 Hp2 Hl1 Hrc Hd Hl2.
  exists (run_of w1 self), (run_of w2 (final_resource (run_of w1 self))).
  split; [apply evaluate_resource_total |].
  split; [apply evaluate_resource_total |].
  assert (Hfin : final_resource (run_of w1 self) = set_stderr self (Some text)).
  { unfold run_of, check_output. rewrite Hr1, Hp1, Hl1.
    destruct (Z.eqb_spec rc 0); [done |]. by rewrite Hd. }
  rewrite Hfin. unfold run_of, check_output.
  rewrite repo_missing_set_stderr, password_missing_set_stderr,
    build_cmd_set_stderr, Hr2, Hp2, Hl2.
  by repeat split.
Qed.

Lemma stderr_outlives_failure_witness :
  exists r1 r2,
    evaluate_resource 2 Scenario.failing_check Scenario.explicit = Some r1
    /\ evaluate_resource 2 Scenario.passing_check_raw_byte (final_resource r1)
       = Some r2
    /\ severities r2 = [Ok]
    /\ yielded r2 = [mkMetric (Some "r1") true "health_check"]
    /\ ResticHealthCheckContext.describe
         (mkMetric (Some "r1") true "health_check") (final_resource r2)
       = Some "fail text".
Proof.
  apply (stderr_outlives_failure Scenario.failing_check
           Scenario.passing_check_raw_byte Scenario.explicit 1
           (list_byte_of_string "fail text") [xff] "fail text");
    (reflexivity || discriminate).
Defined.

(** ** Output of a failed check *)

Lemma ascii_well_formed (bs : list byte) :
  ascii_only bs = true -> utf8_well_formed bs = true.
Proof.
  induction bs as [| b bs IH]; [done |].
  unfold ascii_only. simpl. intros [Hb Hbs]%andb_true_iff.
  rewrite Hb. by apply IH.
Qed.

(** X8. When restic exits with a non-zero status and everything it printed
    is ASCII, decoding cannot fail: the run is [Critical] only, raises
    nothing, and [stderr] becomes the output, byte for byte. *)
Theorem ascii_output_is_kept :
  forall (w : World) (self : ResticHealthCheck.t) (rc : Z) (out : list byte)
         (n : nat),
    repo_missing w self = false ->
    password_missing w self = false ->
    launch w (build_cmd self) = Exited rc out ->
    rc <> 0%Z ->
    ascii_only out = true ->
    exists r,
      evaluate_resource (S (S n)) w self = Some r
      /\ severities r = [Critical]
      /\ uncaught r = None
      /\ stderr (final_resource r) = Some (string_of_list_byte out)
      /\ (list_byte_of_string <$> stderr (final_resource r)) = Some out.
Proof.
  intros w self rc out n Hrepo Hpw Hl Hrc Ha. exists (run_of w self).
  split; [apply evaluate_resource_total |].
  unfold run_of, check_output, decode. rewrite Hrepo, Hpw, Hl.
  destruct (Z.eqb_spec rc 0); [done |].
  rewrite (ascii_well_formed out Ha). simpl.
  by rewrite list_byte_of_string_of_list_byte.
Qed.

Lemma ascii_output_is_kept_witness :
  exists r,
    evaluate_resource 2 Scenario.failing_check Scenario.explicit = Some r
    /\ severities r = [Critical]
    /\ uncaught r = None
    /\ stderr (final_resource r)
       = Some (string_of_list_byte (list_byte_of_string "fail text"))
    /\ (list_byte_of_string <$> stderr (final_resource r))
       = Some (list_byte_of_string "fail text").
Proof.
  apply (ascii_output_is_kept Scenario.failing_check Scenario.explicit 1
           (list_byte_of_string "fail text") 0);
    (reflexivity || discriminate).
Defined.

Lemma failed_check_is_critical_witness :
  exists r,
    evaluate_resource 2 Scenario.failing_check_silent Scenario.explicit = Some r
    /\ yielded r = [unhealthy Scenario.explicit]
    /\ results_of r = [mkResult Critical None (Some (unhealthy Scenario.explicit))]
    /\ uncaught r = None
    /\ ResticHealthCheckContext.describe (unhealthy Scenario.explicit)
         (final_resource r) = Some ""
    /\ list_byte_of_string "" = [].
Proof.
  apply (failed_check_is_critical Scenario.failing_check_silent
           Scenario.explicit 1 [] "" 0);
    (reflexivity || discriminate).
Defined.

(** ** The summary texts *)

Lemma mentions_self (x : string) : mentions x x.
Proof. exists "", "". by rewrite append_empty_r. Qed.

Lemma mentions_wrap (x before text after : string) :
  mentions x text -> mentions x (before +:+ text +:+ after).
Proof.
  intros (b & a & ->). exists (before +:+ b), (a +:+ after).
  by rewrite !append_assoc.
Qed.

Lemma mentions_join (sep x : string) (l : list string) :
  In x l -> mentions x (join sep l).
Proof.
  induction l as [| y l IH]; [intros [] |].
  intros Hin. destruct l as [| z l].
  - destruct Hin as [-> | []]. apply mentions_self.
  - change (join sep (y :: z :: l)) with (y +:+ sep +:+ join sep (z :: l)).
    destruct Hin as [-> | Hin].
    + exists "", (sep +:+ join sep (z :: l)). reflexivity.
    + rewrite <- (append_empty_r (join sep (z :: l))).
      rewrite <- (append_assoc y sep).
      apply mentions_wrap. by apply IH.
Qed.

(** The comprehension of both summaries: it raises [AttributeError] when a
    result carries no metric, and lists the printed names otherwise. *)
Lemma comprehension_names (suffix : string) (rs : list Result) :
  ((exists r, In r rs /\ metric r = None)
   /\ comprehension
        (fun r => n ← ResticSummary.metric_name r; mret (percent_s n +:+ suffix)) rs
      = Raises AttributeError)
  \/ ((forall r, In r rs -> metric r <> None)
      /\ comprehension
           (fun r => n ← ResticSummary.metric_name r; mret (percent_s n +:+ suffix)) rs
         = Returns (map (fun r => printed_name r +:+ suffix) rs)).
Proof.
  induction rs as [| r rs IH]; [right; split; [intros ? [] | reflexivity] |].
  cbn [comprehension map].
  destruct IH as [[(r' & Hin & Hnone) ->] | [Hall ->]].
  - left. split; [exists r'; split; [by right | done] |].
    unfold ResticSummary.metric_name. by destruct (metric r).
  - unfold ResticSummary.metric_name, printed_name.
    destruct (metric r) as [m |] eqn:Hm.
    + right. split; [| reflexivity].
      intros r' [<- | Hin]; [by rewrite Hm | by apply Hall].
    + left. split; [| reflexivity]. exists r. split; [by left | done].
Qed.

(** X9. [ok] and [problem] raise [AttributeError] exactly when some result
    carries no metric, which is what the framework records for a
    [CheckError]; with a metric on every result both return a text. *)
Theorem summary_needs_metrics :
  forall rs : list Result,
    (ResticSummary.ok rs = Raises AttributeError
     <-> exists r, In r rs /\ metric r = None)
    /\ (ResticSummary.problem rs = Raises AttributeError
        <-> exists r, In r rs /\ metric r = None)
    /\ ((forall r, In r rs -> metric r <> None)
        <-> exists t1 t2,
              ResticSummary.ok rs = Returns t1
              /\ ResticSummary.problem rs = Returns t2).
Proof.
  intros rs. unfold ResticSummary.ok, ResticSummary.problem.
  destruct (comprehension_names " health check OK" rs) as [[Hex ->] | [Hall ->]];
    destruct (comprehension_names " health check FAILED" rs)
      as [[Hex' ->] | [Hall' ->]]; simpl.
  - repeat split; try done.
    + intros Hall. destruct Hex as (r & Hin & Hnone). by destruct (Hall r Hin).
    + intros (t1 & t2 & ? & _). discriminate.
  - destruct Hex as (r & Hin & Hnone). by destruct (Hall' r Hin).
  - destruct Hex' as (r & Hin & Hnone). by destruct (Hall r Hin).
  - repeat split; try discriminate; try done.
    + intros (r & Hin & Hnone). by destruct (Hall r Hin).
    + intros (r & Hin & Hnone). by destruct (Hall r Hin).
    + intros _. eauto.
Qed.

(** X10. A run in which the probe raised a [CheckError] before any metric (a
    guard stopped it, or restic could not be launched) leaves one [Unknown]
    result without a metric, and on the results of such a run both [problem]
    and [ok] raise [AttributeError] instead of returning a text. *)
Theorem summary_after_check_error :
  forall (w : World) (self : ResticHealthCheck.t) (n : nat) (r : run),
    evaluate_resource (S (S n)) w self = Some r ->
    yielded r = [] ->
    severities r = [Unknown]
    /\ (exists msg, results_of r = [mkResult Unknown (Some msg) None])
    /\ ResticSummary.problem (results_of r) = Raises AttributeError
    /\ ResticSummary.ok (results_of r) = Raises AttributeError.
Proof.
  intros w self n r H. rewrite evaluate_resource_total in H.
  injection H as <-. by_path w self; simpl; intros Hy; try discriminate Hy;
    (split; [reflexivity | split; [eauto | split; reflexivity]]).
Qed.

Lemma summary_after_check_error_witness :
  severities (run_of Scenario.no_binary Scenario.unconfigured) = [Unknown]
  /\ (exists msg,
        results_of (run_of Scenario.no_binary Scenario.unconfigured)
        = [mkResult Unknown (Some msg) None])
  /\ ResticSummary.problem (results_of (run_of Scenario.no_binary Scenario.unconfigured))
     = Raises AttributeError
  /\ ResticSummary.ok (results_of (run_of Scenario.no_binary Scenario.unconfigured))
     = Raises AttributeError.
Proof.
  apply (summary_after_check_error Scenario.no_binary Scenario.unconfigured 0);
    reflexivity.
Defined.

(** X11. When every result carries a metric, both summaries name every
    result, whatever its state: for each result [r] the text of [ok]
    contains [<name of r> health check OK] and the text of [problem]
    contains [<name of r> health check FAILED]. *)
Theorem summaries_name_every_result :
  forall (rs : list Result) (r : Result),
    (forall r', In r' rs -> metric r' <> None) ->
    In r rs ->
    exists t_ok t_problem,
      ResticSummary.ok rs = Returns t_ok
      /\ ResticSummary.problem rs = Returns t_problem
      /\ mentions (printed_name r +:+ " health check OK") t_ok
      /\ mentions (printed_name r +:+ " health check FAILED") t_problem.
Proof.
  intros rs r Hall Hin. unfold ResticSummary.ok, ResticSummary.problem.
  destruct (comprehension_names " health check OK" rs) as [[Hex _] | [_ ->]];
    [destruct Hex as (r' & Hin' & Hnone); by destruct (Hall r' Hin') |].
  destruct (comprehension_names " health check FAILED" rs) as [[Hex _] | [_ ->]];
    [destruct Hex as (r' & Hin' & Hnone); by destruct (Hall r' Hin') |].
  simpl. eexists _, _. split; [reflexivity |]. split; [reflexivity |]. split.
  - rewrite <- (append_empty_r (join _ _)). apply mentions_wrap, mentions_join.
    by apply (in_map (fun r => printed_name r +:+ " health check OK")).
  - apply mentions_wrap, mentions_join.
    by apply (in_map (fun r => printed_name r +:+ " health check FAILED")).
Qed.

Lemma summaries_name_every_result_witness :
  exists t_ok t_problem,
    ResticSummary.ok [Scenario.result_b; Scenario.result_a] = Returns t_ok
    /\ ResticSummary.problem [Scenario.result_b; Scenario.result_a]
       = Returns t_problem
    /\ mentions (printed_name Scenario.result_a +:+ " health check OK") t_ok
    /\ mentions (printed_name Scenario.result_a +:+ " health check FAILED") t_problem.
Proof.
  apply (summaries_name_every_result
           [Scenario.result_b; Scenario.result_a] Scenario.result_a).
  - intros r' [<- | [<- | []]]; discriminate.
  - right. left. reflexivity.
Defined.




(** ** The guards and empty values *)

Lemma failed_to_run_is_not_a_guard_message (x : string) :
  "Failed to run " +:+ x <> repo_message
  /\ "Failed to run " +:+ x <> password_message.
Proof. split; intros H; discriminate H. Qed.

Lemma guard_messages_differ : repo_message <> password_message.
Proof. unfold repo_message, password_message. discriminate. Qed.

(** Closes a goal whose hypothesis [H] equates two different signals or
    messages, or asks a false test to be true. *)
Ltac absurd_hyp H :=
  solve [ discriminate H
        | injection H as H;
          first [ destruct (guard_messages_differ H)
                | destruct (guard_messages_differ (eq_sym H))
                | destruct (proj1 (failed_to_run_is_not_a_guard_message _) H)
                | destruct (proj2 (failed_to_run_is_not_a_guard_message _) H) ]
        | intuition discriminate ].

(** X13. Which guard fires.  The first advance raises the repository
    message exactly when neither the [repo] option nor [RESTIC_REPOSITORY]
    is non-empty; it raises the password message exactly when one of those
    is non-empty and none of the [password_file] option, [RESTIC_PASSWORD]
    and [RESTIC_PASSWORD_FILE] is.  A variable set to the empty string
    counts as unset, and the repository is checked first. *)
Theorem which_guard_fires :
  forall (w : World) (self : ResticHealthCheck.t),
    (signal_of (first_step w self) = Raise (CheckError repo_message)
     <-> truthy (repo self) = false
         /\ truthy (environ w !! "RESTIC_REPOSITORY") = false)
    /\ (signal_of (first_step w self) = Raise (CheckError password_message)
        <-> (truthy (repo self) = true
             \/ truthy (environ w !! "RESTIC_REPOSITORY") = true)
            /\ truthy (password_file self) = false
            /\ truthy (environ w !! "RESTIC_PASSWORD") = false
            /\ truthy (environ w !! "RESTIC_PASSWORD_FILE") = false).
Proof.
  intros w self. unfold first_step, probe, next, repo_missing, password_missing.
  rewrite truthy_py_or.
  destruct (truthy (repo self)), (truthy (environ w !! "RESTIC_REPOSITORY")),
    (truthy (password_file self)), (truthy (environ w !! "RESTIC_PASSWORD")),
    (truthy (environ w !! "RESTIC_PASSWORD_FILE")); simpl;
    try destruct (check_output w (build_cmd self)) as [? | ? ? | e]; simpl.
  all: split; split; intros H.
  all: try absurd_hyp H.
  all: intuition (auto; fail).
Qed.

(** X14. An option given as the empty string is treated as an option not
    given: the guards decide the same, the argv is the same, so the run
    launches the same process, logs the same lines and reports the same
    states.  (Only the name of the metric differs: it is the empty string,
    not [None].) *)
Theorem empty_option_is_no_option :
  forall (w : World) (bin : string) (r p : option string) (su : bool) (n : nat),
    build_cmd (init bin r p su) = build_cmd (init bin (given r) (given p) su)
    /\ exists run1 run2,
         evaluate_resource (S (S n)) w (init bin r p su) = Some run1
         /\ evaluate_resource (S (S n)) w (init bin (given r) (given p) su)
            = Some run2
         /\ severities run1 = severities run2
         /\ trace run1 = trace run2
         /\ uncaught run1 = uncaught run2
         /\ stderr (final_resource run1) = stderr (final_resource run2).
Proof.
  intros w bin r p su n.
  assert (Hcmd : build_cmd (init bin r p su)
                 = build_cmd (init bin (given r) (given p) su))
    by (by destruct r as [[|] |], p as [[|] |]).
  assert (Hrepo : repo_missing w (init bin r p su)
                  = repo_missing w (init bin (given r) (given p) su))
    by (by destruct r as [[|] |]).
  assert (Hpw : password_missing w (init bin r p su)
                = password_missing w (init bin (given r) (given p) su))
    by (by destruct p as [[|] |]).
  split; [exact Hcmd |].
  exists (run_of w (init bin r p su)),
    (run_of w (init bin (given r) (given p) su)).
  split; [apply evaluate_resource_total |].
  split; [apply evaluate_resource_total |].
  unfold run_of, command_log. rewrite <- Hcmd, <- Hrepo, <- Hpw.
  destruct (repo_missing w (init bin r p su)); [by repeat split |].
  destruct (password_missing w (init bin r p su)); [by repeat split |].
  destruct (check_output w (build_cmd (init bin r p su))) as [? | ? out | ?];
    try (by repeat split).
  destruct (decode out); by repeat split.
Qed.
